(** * Friendship collection: a model of [server/friendship/collection.ts]

    The module is a thin accessor over a document store (the Friendship
    model of mongoose) and over the sibling User accessor.  The store is
    modelled as an explicit world that every operation threads through:
    the friendship collection in natural (insertion) order, the user
    collection, the wall clock read by [new Date()] and the ObjectId
    generator.  The six static methods of [FriendshipCollection] are
    translated one by one over a small state-and-exception monad. *)

From Stdlib Require Import List String ZArith NArith Bool Lia.
From Stdlib Require Import Permutation Sorted Eqdep_dec.
Import ListNotations.

Local Open Scope string_scope.
Local Open Scope list_scope.
Set Warnings "-register-all".

(** ** Data model *)

(** [Types.ObjectId]: a 12-byte identifier, kept as the number it spells. *)
Definition ObjectId := N.

(** [Date]: milliseconds since the epoch. *)
Definition Date := Z.

Module User.
(** Modelled from the spec: the User record of [../user/model] (not under
    src/): "user record with an identifier field", looked up by username. *)
Record t := mk { _id : ObjectId; username : string }.
End User.

Module Friendship.
(** Modelled from the spec: the Friendship schema of [./model] (not under
    src/): identifier, userOneId and userTwoId (references to users) and
    dateCreated.  [R] is what a user reference holds: an [ObjectId] in a
    stored document, the referenced user document (or null) once the path
    has been populated. *)
Record doc (R : Type) := mk {
  _id : ObjectId;
  userOneId : R;
  userTwoId : R;
  dateCreated : Date
}.
Arguments mk {R} _ _ _ _.
Arguments _id {R} _.
Arguments userOneId {R} _.
Arguments userTwoId {R} _.
Arguments dateCreated {R} _.

(** A document as the store holds it. *)
Definition t := doc ObjectId.
(** A document after [populate(['userOneId', 'userTwoId'])]. *)
Definition populated := doc (option User.t).
End Friendship.

(** Values found at a path of a friendship document, and in query filters. *)
Inductive Value :=
| VNull
| VObjectId (i : ObjectId)
| VDate (d : Date).

Definition Value_eqb (a b : Value) : bool :=
  match a, b with
  | VNull, VNull => true
  | VObjectId i, VObjectId j => N.eqb i j
  | VDate d, VDate e => Z.eqb d e
  | _, _ => false
  end.

(** Reading a path of a stored document; [None] is a path the document does
    not have. *)
Definition get (path : string) (d : Friendship.t) : option Value :=
  if String.eqb path "_id" then Some (VObjectId (Friendship._id d))
  else if String.eqb path "userOneId" then Some (VObjectId (Friendship.userOneId d))
  else if String.eqb path "userTwoId" then Some (VObjectId (Friendship.userTwoId d))
  else if String.eqb path "dateCreated" then Some (VDate (Friendship.dateCreated d))
  else None.

(** ** Query filters: [{}], [{path: value}] and [{$or: [...]}] *)

Inductive Filter :=
| FAll
| FEq (path : string) (v : Value)
| FOr (alts : list Filter).

Fixpoint matches (q : Filter) (d : Friendship.t) : bool :=
  match q with
  | FAll => true
  | FEq path v =>
      match get path d with
      | Some x => Value_eqb x v
      | None => Value_eqb VNull v
      end
  | FOr alts => existsb (fun a => matches a d) alts
  end.

(** ** Sorting a query result *)

Inductive Direction :=
| Ascending   (* 1 *)
| Descending. (* -1 *)

(** The store's comparison order on values: null (and a missing path) sorts
    lowest, then ObjectIds, then dates. *)
Definition Value_leb (a b : Value) : bool :=
  match a, b with
  | VNull, _ => true
  | VObjectId _, VNull => false
  | VObjectId i, VObjectId j => N.leb i j
  | VObjectId _, VDate _ => true
  | VDate _, VNull => false
  | VDate _, VObjectId _ => false
  | VDate d, VDate e => Z.leb d e
  end.

Definition sort_key (path : string) (d : Friendship.t) : Value :=
  match get path d with
  | Some v => v
  | None => VNull
  end.

(** [before path dir a b]: [a] may come before [b] in a result sorted on
    [path] in direction [dir]. *)
Definition before (path : string) (dir : Direction) (a b : Friendship.t) : bool :=
  match dir with
  | Ascending => Value_leb (sort_key path a) (sort_key path b)
  | Descending => Value_leb (sort_key path b) (sort_key path a)
  end.

Section InsertionSort.
Context {A : Type} (le : A -> A -> bool).

Fixpoint insert_by (x : A) (l : list A) : list A :=
  match l with
  | [] => [x]
  | y :: t => if le x y then x :: l else y :: insert_by x t
  end.

(** Stable: documents with equal keys keep their natural order. *)
Definition sort_by (l : list A) : list A := fold_right insert_by [] l.
End InsertionSort.

(** ** The world: store contents, clock and id generator *)

Fixpoint distinct (l : list ObjectId) : bool :=
  match l with
  | [] => true
  | x :: t => negb (existsb (N.eqb x) t) && distinct t
  end.

(** The unique index on [_id], and ids already handed out lie below the
    generator. *)
Definition wfb (next : ObjectId) (ds : list Friendship.t) : bool :=
  distinct (map Friendship._id ds)
  && forallb (fun d => N.ltb (Friendship._id d) next) ds.

Record World := mkWorld {
  friendships : list Friendship.t;
  users : list User.t;
  clock : Date;
  nextId : ObjectId;
  world_ok : wfb nextId friendships = true
}.

(** Two worlds with the same data are the same world. *)
Lemma World_eq (w1 w2 : World) :
  friendships w1 = friendships w2 ->
  users w1 = users w2 ->
  clock w1 = clock w2 ->
  nextId w1 = nextId w2 ->
  w1 = w2.
Proof.
  destruct w1 as [f1 u1 c1 n1 k1], w2 as [f2 u2 c2 n2 k2]; simpl.
  intros -> -> -> ->.
  f_equal. apply UIP_dec, bool_dec.
Qed.

(** ** The store invariant is kept by every update *)

Lemma distinct_NoDup (l : list ObjectId) : distinct l = true <-> NoDup l.
Proof.
  induction l as [|x t IH]; simpl.
  - split; [constructor | reflexivity].
  - rewrite andb_true_iff, negb_true_iff, IH, NoDup_cons_iff.
    assert (E : existsb (N.eqb x) t = false <-> ~ In x t).
    { rewrite <- not_true_iff_false, existsb_exists.
      split; intros H K; apply H.
      - exists x. split; [exact K | apply N.eqb_refl].
      - destruct K as (y & Hy & Hxy). apply N.eqb_eq in Hxy. now subst y. }
    now rewrite E.
Qed.

Lemma wfb_spec (next : ObjectId) (ds : list Friendship.t) :
  wfb next ds = true <->
  NoDup (map Friendship._id ds)
  /\ Forall (fun d => (Friendship._id d < next)%N) ds.
Proof.
  unfold wfb. rewrite andb_true_iff, distinct_NoDup, forallb_forall, Forall_forall.
  split; intros [H1 H2]; split; trivial; intros d Hd.
  - apply N.ltb_lt. now apply H2.
  - apply N.ltb_lt. now apply H2.
Qed.

(** Dropping documents cannot make two identifiers collide. *)
Lemma ids_NoDup_filter (keep : Friendship.t -> bool) (ds : list Friendship.t) :
  NoDup (map Friendship._id ds) ->
  NoDup (map Friendship._id (filter keep ds)).
Proof.
  induction ds as [|d rest IH]; cbn [filter map]; intros Hds; [exact Hds|].
  apply NoDup_cons_iff in Hds. destruct Hds as [Hfresh Hrest].
  destruct (keep d); cbn [map]; [|now apply IH].
  apply NoDup_cons; [|now apply IH].
  intros Hdup. apply Hfresh.
  apply in_map_iff in Hdup. destruct Hdup as (e & Hid & He).
  apply filter_In in He. apply in_map_iff. exists e. tauto.
Qed.

Lemma wfb_filter (next : ObjectId) (p : Friendship.t -> bool) (ds : list Friendship.t) :
  wfb next ds = true -> wfb next (filter p ds) = true.
Proof.
  rewrite !wfb_spec. intros [H1 H2]. split.
  - now apply ids_NoDup_filter.
  - rewrite Forall_forall in *. intros d Hd. apply filter_In in Hd. now apply H2.
Qed.

Lemma wfb_succ (next : ObjectId) (ds : list Friendship.t) :
  wfb next ds = true -> wfb (N.succ next) ds = true.
Proof.
  rewrite !wfb_spec. intros [H1 H2]. split; [exact H1|].
  eapply Forall_impl; [|exact H2]. simpl. intros d Hd. lia.
Qed.

(** [has_id i ds]: some document of [ds] carries the identifier [i]. *)
Definition has_id (i : ObjectId) (ds : list Friendship.t) : bool :=
  existsb (fun d => N.eqb (Friendship._id d) i) ds.

Lemma has_id_false (i : ObjectId) (ds : list Friendship.t) :
  has_id i ds = false <-> ~ In i (map Friendship._id ds).
Proof.
  unfold has_id. rewrite <- not_true_iff_false, existsb_exists, in_map_iff.
  split; intros H (d & K1 & K2); apply H; exists d.
  - split; [exact K2 | now apply N.eqb_eq].
  - apply N.eqb_eq in K2. tauto.
Qed.

Lemma wfb_insert (next : ObjectId) (ds : list Friendship.t) (d : Friendship.t) :
  wfb next ds = true ->
  has_id (Friendship._id d) ds = false ->
  wfb (N.max next (N.succ (Friendship._id d))) (ds ++ [d]) = true.
Proof.
  rewrite !wfb_spec, has_id_false. intros [H1 H2] Hd. split.
  - rewrite map_app. simpl.
    eapply Permutation_NoDup; [apply Permutation_cons_append|].
    now constructor.
  - apply Forall_app. split.
    + eapply Forall_impl; [|exact H2]. simpl. intros x Hx. lia.
    + constructor; [lia | constructor].
Qed.

(** [remove_first p ds]: [ds] without its first document satisfying [p]. *)
Fixpoint remove_first (p : Friendship.t -> bool) (ds : list Friendship.t) : list Friendship.t :=
  match ds with
  | [] => []
  | d :: t => if p d then t else d :: remove_first p t
  end.

Lemma remove_first_incl (p : Friendship.t -> bool) (ds : list Friendship.t) :
  incl (remove_first p ds) ds.
Proof.
  induction ds as [|d t IH]; simpl; [apply incl_refl|].
  destruct (p d).
  - apply incl_tl, incl_refl.
  - apply incl_cons; [now left | now apply incl_tl].
Qed.

Lemma wfb_remove_first (next : ObjectId) (p : Friendship.t -> bool) (ds : list Friendship.t) :
  wfb next ds = true -> wfb next (remove_first p ds) = true.
Proof.
  rewrite !wfb_spec. intros [H1 H2]. split.
  - clear H2. induction ds as [|d t IH]; simpl in *; [exact H1|].
    apply NoDup_cons_iff in H1. destruct H1 as [Hd Ht].
    destruct (p d); simpl; [exact Ht|].
    constructor; [|now apply IH].
    intros K. apply Hd. apply in_map_iff in K. destruct K as (y & Hy & Hin).
    apply in_map_iff. exists y. split; [exact Hy|].
    now apply (remove_first_incl p t).
  - rewrite Forall_forall in *. intros d Hd. apply H2.
    now apply (remove_first_incl p ds).
Qed.

(** ** The monad of store operations: state and exceptions *)

Inductive Error :=
| NotFound       (* the User accessor found no user of that name *)
| DuplicateKey.  (* an insert hit the unique index on _id *)

Inductive Result (A : Type) :=
| Ok (a : A)
| Throw (e : Error).
Arguments Ok {A} a.
Arguments Throw {A} e.

(** An awaited operation: it runs in a world, returns or throws, and leaves
    a world behind. *)
Definition M (A : Type) : Type := World -> Result A * World.

Definition ret {A : Type} (a : A) : M A := fun w => (Ok a, w).

Definition bind {A B : Type} (c : M A) (k : A -> M B) : M B :=
  fun w =>
    match c w with
    | (Ok a, w') => k a w'
    | (Throw e, w') => (Throw e, w')
    end.

Declare Scope store_scope.
Delimit Scope store_scope with store.
Notation "x <- c ;; k" := (bind c (fun x => k))
  (at level 61, c at next level, right associativity) : store_scope.
Notation "c ;; k" := (bind c (fun _ => k))
  (at level 61, right associativity) : store_scope.
Local Open Scope store_scope.

(** [new Date()] *)
Definition new_Date : M Date := fun w => (Ok (clock w), w).

(** What a delete operation of the store resolves to. *)
Record DeleteResult := mkDeleteResult {
  acknowledged : bool;
  deletedCount : nat
}.

(** [x !== null], on a reference that may be null. *)
Definition not_null {A : Type} (x : option A) : bool :=
  match x with
  | Some _ => true
  | None => false
  end.

Module UserCollection.
(** Modelled from the spec: the User accessor of [../user/collection] (not
    under src/): [findOneByUsername(username)] gives the user record with
    that username, "failing if not found". *)
Definition findOneByUsername (username : string) : M User.t :=
  fun w =>
    match List.find (fun u => String.eqb (User.username u) username) (users w) with
    | Some u => (Ok u, w)
    | None => (Throw NotFound, w)
    end.
End UserCollection.

(** ** The Friendship model: the store operations the module calls *)

Module FriendshipModel.

(** [new FriendshipModel({userOneId, userTwoId, dateCreated})]: a document
    in memory, with a fresh identifier; nothing is stored yet. *)
Definition new (userOneId userTwoId : ObjectId) (dateCreated : Date) : M Friendship.t :=
  fun w =>
    (Ok (Friendship.mk (nextId w) userOneId userTwoId dateCreated),
     mkWorld (friendships w) (users w) (clock w) (N.succ (nextId w))
             (wfb_succ _ _ (world_ok w))).

(** [doc.save()]: one insert, refused by the unique index when the
    identifier is taken. *)
Definition save (d : Friendship.t) : M unit :=
  fun w =>
    match bool_dec (has_id (Friendship._id d) (friendships w)) false with
    | left fresh =>
        (Ok tt,
         mkWorld (friendships w ++ [d]) (users w) (clock w)
                 (N.max (nextId w) (N.succ (Friendship._id d)))
                 (wfb_insert _ _ d (world_ok w) fresh))
    | right _ => (Throw DuplicateKey, w)
    end.

(** The user a reference points to, null when there is none. *)
Definition deref (i : ObjectId) (w : World) : option User.t :=
  List.find (fun u => N.eqb (User._id u) i) (users w).

(** [doc.populate(['userOneId', 'userTwoId'])]: both references replaced
    by the user documents they point to; the store is only read. *)
Definition populate (d : Friendship.t) : M Friendship.populated :=
  fun w =>
    (Ok (Friendship.mk (Friendship._id d)
           (deref (Friendship.userOneId d) w)
           (deref (Friendship.userTwoId d) w)
           (Friendship.dateCreated d)),
     w).

(** [Model.findOne(filter)]: the first matching document, or null. *)
Definition findOne (q : Filter) : M (option Friendship.t) :=
  fun w => (Ok (List.find (matches q) (friendships w)), w).

(** A query under construction: [Model.find(filter)], then [.sort(...)]. *)
Record Query := mkQuery {
  q_filter : Filter;
  q_sort : option (string * Direction)
}.

Definition find (q : Filter) : Query := mkQuery q None.

Definition sort (q : Query) (path : string) (dir : Direction) : Query :=
  mkQuery (q_filter q) (Some (path, dir)).

(** Awaiting a query runs it. *)
Definition exec (q : Query) : M (list Friendship.t) :=
  fun w =>
    let found := filter (matches (q_filter q)) (friendships w) in
    (Ok match q_sort q with
        | Some (path, dir) => sort_by (before path dir) found
        | None => found
        end,
     w).

(** [Model.deleteOne(filter)]: removes the first matching document, if
    any, and resolves to an acknowledgment object. *)
Definition deleteOne (q : Filter) : M (option DeleteResult) :=
  fun w =>
    (Ok (Some (mkDeleteResult true
                 (if existsb (matches q) (friendships w) then 1 else 0))),
     mkWorld (remove_first (matches q) (friendships w)) (users w) (clock w) (nextId w)
             (wfb_remove_first _ _ _ (world_ok w))).

(** [Model.deleteMany(filter)]: removes every matching document. *)
Definition deleteMany (q : Filter) : M (option DeleteResult) :=
  fun w =>
    (Ok (Some (mkDeleteResult true
                 (List.length (filter (matches q) (friendships w))))),
     mkWorld (filter (fun d => negb (matches q d)) (friendships w))
             (users w) (clock w) (nextId w)
             (wfb_filter _ _ _ (world_ok w))).

End FriendshipModel.

(** ** The module itself: [class FriendshipCollection] *)

Module FriendshipCollection.

Definition addOne (userOneId userTwoId : ObjectId) : M Friendship.populated :=
  dateCreated <- new_Date ;;
  friendship <- FriendshipModel.new userOneId userTwoId dateCreated ;;
  FriendshipModel.save friendship ;;
  FriendshipModel.populate friendship.

Definition findOne (friendshipId : ObjectId) : M (option Friendship.t) :=
  FriendshipModel.findOne (FEq "_id" (VObjectId friendshipId)).

Definition findAll : M (list Friendship.t) :=
  FriendshipModel.exec
    (FriendshipModel.sort (FriendshipModel.find FAll) "dateFriendshiped" Descending).

Definition findAllFriendshipsOfUser (username : string) : M (list Friendship.t) :=
  user <- UserCollection.findOneByUsername username ;;
  friendships <- FriendshipModel.exec
    (FriendshipModel.find
       (FOr [FEq "userOneId" (VObjectId (User._id user));
             FEq "userTwoId" (VObjectId (User._id user))])) ;;
  ret friendships.

Definition deleteOne (friendshipId : ObjectId) : M bool :=
  deletedFriendRequest <- FriendshipModel.deleteOne (FEq "_id" (VObjectId friendshipId)) ;;
  ret (not_null deletedFriendRequest).

Definition deleteAllFriendshipOfUser (username : string) : M unit :=
  user <- UserCollection.findOneByUsername username ;;
  FriendshipModel.deleteMany (FEq "userOneId" (VObjectId (User._id user))) ;;
  FriendshipModel.deleteMany (FEq "userTwoId" (VObjectId (User._id user))) ;;
  ret tt.

End FriendshipCollection.

(** ** Vocabulary of the properties *)

(** [between u1 u2 d]: [d] is a friendship between [u1] and [u2], in either
    order. *)
Definition between (u1 u2 : ObjectId) (d : Friendship.t) : bool :=
  (N.eqb (Friendship.userOneId d) u1 && N.eqb (Friendship.userTwoId d) u2)
  || (N.eqb (Friendship.userOneId d) u2 && N.eqb (Friendship.userTwoId d) u1).

(** The redesign the design notes ask for: one conditional delete, a single
    query matching either role. *)
Definition deleteAllFriendshipOfUser_single (username : string) : M unit :=
  user <- UserCollection.findOneByUsername username ;;
  FriendshipModel.deleteMany
    (FOr [FEq "userOneId" (VObjectId (User._id user));
          FEq "userTwoId" (VObjectId (User._id user))]) ;;
  ret tt.

(** [sorted_on path dir l]: [l] is in the order a sort on [path] in
    direction [dir] asks for. *)
Definition sorted_on (path : string) (dir : Direction) (l : list Friendship.t) : Prop :=
  StronglySorted (fun a b => before path dir a b = true) l.

(** Descending creation order: no record comes before one created later. *)
Definition descending_by_dateCreated (l : list Friendship.t) : Prop :=
  StronglySorted
    (fun a b => (Friendship.dateCreated b <= Friendship.dateCreated a)%Z) l.

(** [findAll] with the sort key corrected to the attribute that [addOne]
    writes. *)
Definition findAll_by_dateCreated : M (list Friendship.t) :=
  FriendshipModel.exec
    (FriendshipModel.sort (FriendshipModel.find FAll) "dateCreated" Descending).

(** Time passing between two calls. *)
Definition elapse (ms : Z) : M unit :=
  fun w =>
    (Ok tt, mkWorld (friendships w) (users w) (clock w + ms)%Z (nextId w) (world_ok w)).

(** ** Worlds used to run the module on concrete inputs *)

Module Scenario.
Definition alice : User.t := User.mk 100%N "alice".
Definition bob : User.t := User.mk 200%N "bob".
Definition carol : User.t := User.mk 300%N "carol".

(** Three users, no friendship yet. *)
Definition empty : World := mkWorld [] [alice; bob; carol] 1000%Z 0%N eq_refl.

(** Alice and Bob are friends, and so are Carol and Alice. *)
Definition two_friendships : World :=
  mkWorld [Friendship.mk 0%N 100%N 200%N 1000%Z; Friendship.mk 1%N 300%N 100%N 2000%Z]
          [alice; bob; carol] 3000%Z 2%N eq_refl.
End Scenario.

(** * Properties *)

(** ** What the three filters of the module match *)

Lemma matches_id (i : ObjectId) (d : Friendship.t) :
  matches (FEq "_id" (VObjectId i)) d = N.eqb (Friendship._id d) i.
Proof. reflexivity. Qed.

Lemma matches_userOneId (i : ObjectId) (d : Friendship.t) :
  matches (FEq "userOneId" (VObjectId i)) d = N.eqb (Friendship.userOneId d) i.
Proof. reflexivity. Qed.

Lemma matches_userTwoId (i : ObjectId) (d : Friendship.t) :
  matches (FEq "userTwoId" (VObjectId i)) d = N.eqb (Friendship.userTwoId d) i.
Proof. reflexivity. Qed.

Lemma matches_either (i : ObjectId) (d : Friendship.t) :
  matches (FOr [FEq "userOneId" (VObjectId i); FEq "userTwoId" (VObjectId i)]) d
  = N.eqb (Friendship.userOneId d) i || N.eqb (Friendship.userTwoId d) i.
Proof.
  change (N.eqb (Friendship.userOneId d) i || (N.eqb (Friendship.userTwoId d) i || false)
          = N.eqb (Friendship.userOneId d) i || N.eqb (Friendship.userTwoId d) i).
  now rewrite orb_false_r.
Qed.

Lemma matches_either_iff (i : ObjectId) (d : Friendship.t) :
  matches (FOr [FEq "userOneId" (VObjectId i); FEq "userTwoId" (VObjectId i)]) d = true
  <-> Friendship.userOneId d = i \/ Friendship.userTwoId d = i.
Proof. now rewrite matches_either, orb_true_iff, !N.eqb_eq. Qed.

(** ** Facts about the store that the module's properties rest on *)

Lemma world_NoDup_ids (w : World) : NoDup (map Friendship._id (friendships w)).
Proof. exact (proj1 (proj1 (wfb_spec _ _) (world_ok w))). Qed.

Lemma world_NoDup (w : World) : NoDup (friendships w).
Proof. exact (NoDup_map_inv _ _ (world_NoDup_ids w)). Qed.

Lemma world_ids_below (w : World) (d : Friendship.t) :
  In d (friendships w) -> (Friendship._id d < nextId w)%N.
Proof.
  intros H. pose proof (proj2 (proj1 (wfb_spec _ _) (world_ok w))) as K.
  rewrite Forall_forall in K. now apply K.
Qed.

Lemma nextId_fresh (w : World) : has_id (nextId w) (friendships w) = false.
Proof.
  apply has_id_false. intros K. apply in_map_iff in K.
  destruct K as (d & Hd & Hin). apply world_ids_below in Hin. lia.
Qed.

Lemma filter_keeps_all {A : Type} (p : A -> bool) (l : list A) :
  (forall x, In x l -> p x = true) -> filter p l = l.
Proof.
  induction l as [|x t IH]; simpl; intros H; [reflexivity|].
  rewrite (H x (or_introl eq_refl)). f_equal. apply IH. intros y Hy. apply H. now right.
Qed.

(** Under the unique index, removing the first document with an identifier
    removes every document with it. *)
Lemma remove_first_by_id (i : ObjectId) (ds : list Friendship.t) :
  NoDup (map Friendship._id ds) ->
  remove_first (matches (FEq "_id" (VObjectId i))) ds
  = filter (fun d => negb (N.eqb (Friendship._id d) i)) ds.
Proof.
  induction ds as [|d t IH]; simpl; intros H; [reflexivity|].
  apply NoDup_cons_iff in H. destruct H as [Hd Ht].
  rewrite ?matches_id. destruct (N.eqb_spec (Friendship._id d) i) as [E|E]; simpl.
  - symmetry. apply filter_keeps_all. intros x Hx.
    apply negb_true_iff, N.eqb_neq. intros K. apply Hd.
    apply in_map_iff. exists x. split; [congruence | exact Hx].
  - f_equal. now apply IH.
Qed.

Lemma find_filtered_out {A : Type} (p : A -> bool) (l : list A) :
  List.find p (filter (fun x => negb (p x)) l) = None.
Proof.
  induction l as [|x t IH]; simpl; [reflexivity|].
  destruct (p x) eqn:E; simpl; [exact IH|]. now rewrite E.
Qed.

Lemma find_by_id_unique (i : ObjectId) (ds : list Friendship.t) (d : Friendship.t) :
  NoDup (map Friendship._id ds) ->
  In d ds -> Friendship._id d = i ->
  List.find (matches (FEq "_id" (VObjectId i))) ds = Some d.
Proof.
  induction ds as [|x t IH]; simpl; intros H Hin Hid; [contradiction|].
  apply NoDup_cons_iff in H. destruct H as [Hx Ht].
  rewrite ?matches_id. destruct Hin as [->|Hin].
  - rewrite Hid, N.eqb_refl. reflexivity.
  - destruct (N.eqb_spec (Friendship._id x) i) as [E|E].
    + exfalso. apply Hx. apply in_map_iff. exists d. split; [congruence | exact Hin].
    + now apply IH.
Qed.

(** ** findAllFriendshipsOfUser *)

(** C1: when the username resolves to a user, [findAllFriendshipsOfUser]
    returns, without changing the store, exactly the stored friendship
    records in which that user's id is [userOneId] or [userTwoId]: each such
    record (once), and no record where the id is neither party. *)
Theorem findAllFriendshipsOfUser_exact (w : World) (username : string) (user : User.t) :
  UserCollection.findOneByUsername username w = (Ok user, w) ->
  exists found,
    FriendshipCollection.findAllFriendshipsOfUser username w = (Ok found, w)
    /\ NoDup found
    /\ forall d, In d found <->
         In d (friendships w)
         /\ (Friendship.userOneId d = User._id user
             \/ Friendship.userTwoId d = User._id user).
Proof.
  intros H.
  exists (filter (matches (FOr [FEq "userOneId" (VObjectId (User._id user));
                                FEq "userTwoId" (VObjectId (User._id user))]))
                 (friendships w)).
  split; [|split].
  - unfold FriendshipCollection.findAllFriendshipsOfUser, bind. rewrite H. reflexivity.
  - apply NoDup_filter, world_NoDup.
  - intros d. now rewrite filter_In, matches_either_iff.
Qed.

Lemma findAllFriendshipsOfUser_exact_witness :
  exists found,
    FriendshipCollection.findAllFriendshipsOfUser "alice" Scenario.two_friendships
    = (Ok found, Scenario.two_friendships)
    /\ NoDup found
    /\ forall d, In d found <->
         In d (friendships Scenario.two_friendships)
         /\ (Friendship.userOneId d = 100%N \/ Friendship.userTwoId d = 100%N).
Proof.
  exact (findAllFriendshipsOfUser_exact
           Scenario.two_friendships "alice" Scenario.alice eq_refl).
Defined.

(** ** findOne and deleteOne *)

(** C5: [findOne friendshipId] returns the stored record whose identifier is
    [friendshipId] when there is one, and null when no stored record has
    that identifier; the store is left as it was. *)
Theorem findOne_by_id (w : World) (friendshipId : ObjectId) :
  (forall d, In d (friendships w) -> Friendship._id d = friendshipId ->
     FriendshipCollection.findOne friendshipId w = (Ok (Some d), w))
  /\ ((forall d, In d (friendships w) -> Friendship._id d <> friendshipId) ->
     FriendshipCollection.findOne friendshipId w = (Ok None, w)).
Proof.
  unfold FriendshipCollection.findOne, FriendshipModel.findOne. split.
  - intros d Hin Hid.
    now rewrite (find_by_id_unique friendshipId _ d (world_NoDup_ids w) Hin Hid).
  - intros H.
    destruct (List.find _ (friendships w)) as [d|] eqn:E; [|reflexivity].
    apply find_some in E. destruct E as [Hin Hm].
    rewrite matches_id in Hm. apply N.eqb_eq in Hm. now destruct (H d Hin).
Qed.

(** C4: [deleteOne friendshipId] removes the record with that identifier, if
    there is one, and keeps every other record; the store's acknowledgment
    is never null, so the result is [true] for every input, also when the
    acknowledgment counts no deleted record. *)
Theorem deleteOne_always_true (w : World) (friendshipId : ObjectId) :
  exists ack w',
    FriendshipModel.deleteOne (FEq "_id" (VObjectId friendshipId)) w = (Ok (Some ack), w')
    /\ FriendshipCollection.deleteOne friendshipId w = (Ok true, w')
    /\ (forall d, In d (friendships w') <->
          In d (friendships w) /\ Friendship._id d <> friendshipId)
    /\ deletedCount ack = (if has_id friendshipId (friendships w) then 1 else 0)%nat
    /\ users w' = users w /\ clock w' = clock w /\ nextId w' = nextId w.
Proof.
  eexists. eexists. split; [reflexivity|]. split; [reflexivity|].
  split; [|repeat split].
  cbn [friendships]. rewrite (remove_first_by_id _ _ (world_NoDup_ids w)).
  intros d. rewrite filter_In, negb_true_iff, N.eqb_neq. reflexivity.
Qed.

(** C7: after [deleteOne id], [findOne id] returns null, whatever the store
    held before. *)
Theorem deleteOne_then_findOne (w : World) (id : ObjectId) :
  exists w',
    FriendshipCollection.deleteOne id w = (Ok true, w')
    /\ FriendshipCollection.findOne id w' = (Ok None, w')
    /\ (FriendshipCollection.deleteOne id ;; FriendshipCollection.findOne id) w
       = (Ok None, w').
Proof.
  eexists. split; [reflexivity|].
  assert (E : forall w0, friendships w0
                = remove_first (matches (FEq "_id" (VObjectId id))) (friendships w) ->
              FriendshipCollection.findOne id w0 = (Ok None, w0)).
  { intros w0 Hw0. unfold FriendshipCollection.findOne, FriendshipModel.findOne.
    rewrite Hw0, (remove_first_by_id _ _ (world_NoDup_ids w)).
    now rewrite (find_filtered_out (matches (FEq "_id" (VObjectId id)))). }
  split.
  - now apply E.
  - unfold bind. cbn [FriendshipCollection.deleteOne bind FriendshipModel.deleteOne ret].
    now apply E.
Qed.

(** ** addOne *)

(** What one call of [addOne] does, step by step: it reads the clock, draws
    the next identifier, inserts the record (the identifier is fresh, so the
    unique index lets it through) and resolves both references. *)
Lemma addOne_run (w : World) (userOneId userTwoId : ObjectId) :
  exists w',
    FriendshipCollection.addOne userOneId userTwoId w
    = (Ok (Friendship.mk (nextId w)
             (FriendshipModel.deref userOneId w)
             (FriendshipModel.deref userTwoId w)
             (clock w)), w')
    /\ friendships w'
       = friendships w ++ [Friendship.mk (nextId w) userOneId userTwoId (clock w)]
    /\ users w' = users w
    /\ clock w' = clock w
    /\ nextId w' = N.succ (nextId w).
Proof.
  unfold FriendshipCollection.addOne, bind, new_Date, FriendshipModel.new,
    FriendshipModel.save.
  cbn [friendships users clock nextId Friendship._id].
  destruct (bool_dec (has_id (nextId w) (friendships w)) false) as [fresh|taken].
  - eexists. split; [reflexivity|]. cbn [friendships users clock nextId].
    repeat split. lia.
  - destruct taken. apply nextId_fresh.
Qed.

Lemma deref_user (w : World) (u : User.t) :
  In u (users w) ->
  exists p, FriendshipModel.deref (User._id u) w = Some p
            /\ In p (users w) /\ User._id p = User._id u.
Proof.
  intros Hin. unfold FriendshipModel.deref.
  destruct (List.find _ (users w)) as [p|] eqn:E.
  - apply find_some in E. destruct E as [Hp Hid]. apply N.eqb_eq in Hid.
    exists p. auto.
  - apply (find_none _ _ E) in Hin. rewrite N.eqb_refl in Hin. discriminate.
Qed.

(** C2: for the ids of two users of the store, [addOne] creates a record
    carrying those two ids and the time of the call as [dateCreated],
    persists it with exactly one insert (the collection afterwards is the
    collection before followed by the new record; users and clock are
    untouched), and returns that record with both references replaced by
    the user documents they point to. *)
Theorem addOne_creates_persists_populates
    (w : World) (userOne userTwo : User.t) :
  In userOne (users w) -> In userTwo (users w) ->
  exists w' p1 p2,
    FriendshipCollection.addOne (User._id userOne) (User._id userTwo) w
    = (Ok (Friendship.mk (nextId w) (Some p1) (Some p2) (clock w)), w')
    /\ friendships w'
       = friendships w
         ++ [Friendship.mk (nextId w) (User._id userOne) (User._id userTwo) (clock w)]
    /\ has_id (nextId w) (friendships w) = false
    /\ users w' = users w /\ clock w' = clock w
    /\ In p1 (users w) /\ User._id p1 = User._id userOne
    /\ In p2 (users w) /\ User._id p2 = User._id userTwo.
Proof.
  intros H1 H2.
  destruct (addOne_run w (User._id userOne) (User._id userTwo))
    as (w' & Hrun & Hf & Hu & Hc & _).
  destruct (deref_user w userOne H1) as (p1 & E1 & I1 & J1).
  destruct (deref_user w userTwo H2) as (p2 & E2 & I2 & J2).
  rewrite E1, E2 in Hrun.
  exists w', p1, p2. repeat split; trivial. apply nextId_fresh.
Qed.

Lemma addOne_creates_persists_populates_witness :
  exists w' p1 p2,
    FriendshipCollection.addOne 200%N 300%N Scenario.two_friendships
    = (Ok (Friendship.mk 2%N (Some p1) (Some p2) 3000%Z), w')
    /\ friendships w'
       = friendships Scenario.two_friendships ++ [Friendship.mk 2%N 200%N 300%N 3000%Z]
    /\ has_id 2%N (friendships Scenario.two_friendships) = false
    /\ users w' = users Scenario.two_friendships
    /\ clock w' = 3000%Z
    /\ In p1 (users Scenario.two_friendships) /\ User._id p1 = 200%N
    /\ In p2 (users Scenario.two_friendships) /\ User._id p2 = 300%N.
Proof.
  apply (addOne_creates_persists_populates
           Scenario.two_friendships Scenario.bob Scenario.carol).
  - simpl. tauto.
  - simpl. tauto.
Defined.

(** C6: [addOne u1 u2] followed by [findOne] on the identifier of the record
    it returned finds a record whose [userOneId] is [u1], whose [userTwoId]
    is [u2] and whose [dateCreated] is present and not null (it is the time
    of the [addOne] call). *)
Theorem addOne_then_findOne (w : World) (u1 u2 : ObjectId) :
  exists w' r,
    (p <- FriendshipCollection.addOne u1 u2 ;;
     FriendshipCollection.findOne (Friendship._id p)) w
    = (Ok (Some r), w')
    /\ Friendship.userOneId r = u1
    /\ Friendship.userTwoId r = u2
    /\ get "dateCreated" r = Some (VDate (clock w))
    /\ get "dateCreated" r <> None
    /\ get "dateCreated" r <> Some VNull.
Proof.
  destruct (addOne_run w u1 u2) as (w' & Hrun & Hf & _).
  exists w', (Friendship.mk (nextId w) u1 u2 (clock w)).
  split; [|repeat split; discriminate].
  unfold bind at 1. rewrite Hrun. cbn [Friendship._id].
  unfold FriendshipCollection.findOne, FriendshipModel.findOne.
  rewrite (find_by_id_unique (nextId w) (friendships w')
             (Friendship.mk (nextId w) u1 u2 (clock w)) (world_NoDup_ids w'));
    [reflexivity | | reflexivity].
  rewrite Hf. apply in_or_app. right. now left.
Qed.

Lemma between_refl (i u1 u2 : ObjectId) (t : Date) :
  between u1 u2 (Friendship.mk i u1 u2 t) = true.
Proof. unfold between. cbn. now rewrite !N.eqb_refl. Qed.

(** C9: [addOne] never fails and always inserts: every record already stored
    is kept, and the number of stored records between the pair (in either
    order) grows by one, so a pair that already had a friendship record has
    at least two afterwards. *)
Theorem addOne_no_duplicate_check (w : World) (u1 u2 : ObjectId) :
  exists p w',
    FriendshipCollection.addOne u1 u2 w = (Ok p, w')
    /\ (forall d, In d (friendships w) -> In d (friendships w'))
    /\ List.length (friendships w') = S (List.length (friendships w))
    /\ List.length (filter (between u1 u2) (friendships w'))
       = S (List.length (filter (between u1 u2) (friendships w)))
    /\ (forall existing,
          In existing (friendships w) -> between u1 u2 existing = true ->
          2 <= List.length (filter (between u1 u2) (friendships w'))).
Proof.
  destruct (addOne_run w u1 u2) as (w' & Hrun & Hf & _).
  assert (Hcount : List.length (filter (between u1 u2) (friendships w'))
                   = S (List.length (filter (between u1 u2) (friendships w)))).
  { rewrite Hf, filter_app, length_app. cbn [filter].
    rewrite between_refl. cbn [List.length]. lia. }
  eexists. exists w'. split; [exact Hrun|]. repeat split.
  - intros d Hd. rewrite Hf. apply in_or_app. now left.
  - rewrite Hf, length_app. cbn [List.length]. lia.
  - exact Hcount.
  - intros existing Hin Hb. rewrite Hcount.
    assert (K : In existing (filter (between u1 u2) (friendships w)))
      by now apply filter_In.
    destruct (filter (between u1 u2) (friendships w)); [contradiction|].
    cbn [List.length]. lia.
Qed.

(** ** deleteAllFriendshipOfUser *)

(** The user lookup reads the user collection only. *)
Lemma findOneByUsername_users (w w' : World) (username : string) (user : User.t) :
  users w' = users w ->
  UserCollection.findOneByUsername username w = (Ok user, w) ->
  UserCollection.findOneByUsername username w' = (Ok user, w').
Proof.
  unfold UserCollection.findOneByUsername. intros ->.
  destruct (List.find _ (users w)); intros H; inversion H. reflexivity.
Qed.

Lemma deleteAllFriendshipOfUser_run (w : World) (username : string) (user : User.t) :
  UserCollection.findOneByUsername username w = (Ok user, w) ->
  exists w',
    FriendshipCollection.deleteAllFriendshipOfUser username w = (Ok tt, w')
    /\ friendships w'
       = filter (fun d => negb (matches (FEq "userTwoId" (VObjectId (User._id user))) d))
           (filter (fun d => negb (matches (FEq "userOneId" (VObjectId (User._id user))) d))
              (friendships w))
    /\ users w' = users w
    /\ clock w' = clock w
    /\ nextId w' = nextId w.
Proof.
  intros H. unfold FriendshipCollection.deleteAllFriendshipOfUser, bind at 1.
  rewrite H. eexists. split; [reflexivity|]. repeat split.
Qed.

(** C8: when the username resolves to a user, [deleteAllFriendshipOfUser]
    removes every record in which that user's id is either party (and no
    other record), and [findAllFriendshipsOfUser] for the same username
    then returns the empty list. *)
Theorem deleteAll_then_findAll (w : World) (username : string) (user : User.t) :
  UserCollection.findOneByUsername username w = (Ok user, w) ->
  exists w',
    FriendshipCollection.deleteAllFriendshipOfUser username w = (Ok tt, w')
    /\ (forall d, In d (friendships w') <->
          In d (friendships w)
          /\ Friendship.userOneId d <> User._id user
          /\ Friendship.userTwoId d <> User._id user)
    /\ (FriendshipCollection.deleteAllFriendshipOfUser username ;;
        FriendshipCollection.findAllFriendshipsOfUser username) w
       = (Ok [], w').
Proof.
  intros H.
  destruct (deleteAllFriendshipOfUser_run w username user H)
    as (w' & Hrun & Hf & Hu & _).
  assert (Hin : forall d, In d (friendships w') <->
                  In d (friendships w)
                  /\ Friendship.userOneId d <> User._id user
                  /\ Friendship.userTwoId d <> User._id user).
  { intros d. rewrite Hf, !filter_In, matches_userOneId, matches_userTwoId.
    rewrite !negb_true_iff, !N.eqb_neq. tauto. }
  exists w'. split; [exact Hrun|]. split; [exact Hin|].
  unfold bind at 1. rewrite Hrun.
  unfold FriendshipCollection.findAllFriendshipsOfUser, bind.
  rewrite (findOneByUsername_users w w' username user Hu H).
  unfold FriendshipModel.exec, FriendshipModel.find, ret. cbn [FriendshipModel.q_filter FriendshipModel.q_sort].
  replace (filter _ (friendships w')) with (@nil Friendship.t); [reflexivity|].
  symmetry. 
  destruct (filter _ (friendships w')) as [|d t] eqn:E; [reflexivity|].
  assert (K : In d (d :: t)) by now left.
  rewrite <- E in K. apply filter_In in K. destruct K as [K1 K2].
  apply matches_either_iff in K2. apply Hin in K1. tauto.
Qed.

Lemma deleteAll_then_findAll_witness :
  exists w',
    FriendshipCollection.deleteAllFriendshipOfUser "alice" Scenario.two_friendships
    = (Ok tt, w')
    /\ (forall d, In d (friendships w') <->
          In d (friendships Scenario.two_friendships)
          /\ Friendship.userOneId d <> 100%N
          /\ Friendship.userTwoId d <> 100%N)
    /\ (FriendshipCollection.deleteAllFriendshipOfUser "alice" ;;
        FriendshipCollection.findAllFriendshipsOfUser "alice") Scenario.two_friendships
       = (Ok [], w').
Proof.
  exact (deleteAll_then_findAll Scenario.two_friendships "alice" Scenario.alice eq_refl).
Defined.

Lemma filter_twice_either (i : ObjectId) (ds : list Friendship.t) :
  filter (fun d => negb (matches (FEq "userTwoId" (VObjectId i)) d))
    (filter (fun d => negb (matches (FEq "userOneId" (VObjectId i)) d)) ds)
  = filter (fun d => negb (matches (FOr [FEq "userOneId" (VObjectId i);
                                         FEq "userTwoId" (VObjectId i)]) d)) ds.
Proof.
  induction ds as [|d t IH]; [reflexivity|].
  cbn [filter]. rewrite matches_either, matches_userOneId.
  destruct (N.eqb (Friendship.userOneId d) i); cbn [negb orb].
  - exact IH.
  - cbn [filter]. rewrite matches_userTwoId.
    destruct (N.eqb (Friendship.userTwoId d) i); cbn [negb]; [exact IH|].
    now rewrite IH.
Qed.

(** C10: run to completion, the two [deleteMany] steps of
    [deleteAllFriendshipOfUser] return the same result and leave the same
    world as a single [deleteMany] with the [$or] of the two filters, from
    every world and for every username (when the username does not resolve,
    both fail in the same way and change nothing). *)
Theorem deleteAll_two_steps_as_one (w : World) (username : string) :
  FriendshipCollection.deleteAllFriendshipOfUser username w
  = deleteAllFriendshipOfUser_single username w.
Proof.
  unfold FriendshipCollection.deleteAllFriendshipOfUser,
    deleteAllFriendshipOfUser_single, bind.
  destruct (UserCollection.findOneByUsername username w) as [[user|e] w1];
    [|reflexivity].
  unfold FriendshipModel.deleteMany, ret. cbv beta iota. f_equal.
  apply World_eq; cbn [friendships users clock nextId]; try reflexivity.
  apply filter_twice_either.
Qed.

(** ** findAll and the order of its result *)

Section SortFacts.
Context {A : Type} (le : A -> A -> bool).

Lemma insert_by_perm (x : A) (l : list A) : Permutation (insert_by le x l) (x :: l).
Proof.
  induction l as [|y t IH]; simpl; [reflexivity|].
  destruct (le x y); [reflexivity|].
  rewrite IH. apply perm_swap.
Qed.

Lemma sort_by_perm (l : list A) : Permutation (sort_by le l) l.
Proof.
  induction l as [|x t IH]; simpl; [reflexivity|].
  rewrite insert_by_perm. now constructor.
Qed.

(** A comparison that holds between any two elements moves nothing. *)
Lemma sort_by_vacuous (l : list A) :
  (forall x y, le x y = true) -> sort_by le l = l.
Proof.
  intros H. induction l as [|x t IH]; simpl; [reflexivity|].
  rewrite IH. destruct t as [|y t']; simpl; [reflexivity|]. now rewrite H.
Qed.

Hypothesis le_total : forall x y, le x y = true \/ le y x = true.
Hypothesis le_trans : forall x y z, le x y = true -> le y z = true -> le x z = true.

Lemma insert_by_sorted (x : A) (l : list A) :
  StronglySorted (fun a b => le a b = true) l ->
  StronglySorted (fun a b => le a b = true) (insert_by le x l).
Proof.
  induction 1 as [|y t Ht IH Hy]; simpl.
  - repeat constructor.
  - destruct (le x y) eqn:E.
    + constructor; [now constructor|].
      constructor; [exact E|].
      eapply Forall_impl; [|exact Hy]. intros z Hz. now apply (le_trans x y z).
    + constructor; [exact IH|].
      apply (Permutation_Forall (x := x :: t)).
      * symmetry. apply insert_by_perm.
      * constructor; [|exact Hy].
        destruct (le_total x y) as [K|K]; [congruence | exact K].
Qed.

Lemma sort_by_sorted (l : list A) :
  StronglySorted (fun a b => le a b = true) (sort_by le l).
Proof.
  induction l as [|x t IH]; simpl; [constructor|]. now apply insert_by_sorted.
Qed.
End SortFacts.

Lemma Value_leb_total (a b : Value) : Value_leb a b = true \/ Value_leb b a = true.
Proof.
  destruct a, b; simpl; auto.
  - rewrite !N.leb_le. lia.
  - rewrite !Z.leb_le. lia.
Qed.

Lemma Value_leb_trans (a b c : Value) :
  Value_leb a b = true -> Value_leb b c = true -> Value_leb a c = true.
Proof.
  destruct a, b, c; simpl; try easy.
  - rewrite !N.leb_le. lia.
  - rewrite !Z.leb_le. lia.
Qed.

Lemma before_total (path : string) (dir : Direction) (a b : Friendship.t) :
  before path dir a b = true \/ before path dir b a = true.
Proof. destruct dir; apply Value_leb_total. Qed.

Lemma before_trans (path : string) (dir : Direction) (a b c : Friendship.t) :
  before path dir a b = true -> before path dir b c = true ->
  before path dir a c = true.
Proof.
  destruct dir; simpl; intros H K.
  - exact (Value_leb_trans _ _ _ H K).
  - exact (Value_leb_trans _ _ _ K H).
Qed.

(** No stored document has a [dateFriendshiped] path, so every pair of
    documents is in order for a sort on it. *)
Lemma before_dateFriendshiped (dir : Direction) (a b : Friendship.t) :
  before "dateFriendshiped" dir a b = true.
Proof. now destruct dir. Qed.

Lemma sorted_on_dateFriendshiped (dir : Direction) (l : list Friendship.t) :
  sorted_on "dateFriendshiped" dir l.
Proof.
  induction l as [|d t IH]; constructor; [exact IH|].
  apply Forall_forall. intros x _. apply before_dateFriendshiped.
Qed.

Lemma sorted_on_dateCreated (l : list Friendship.t) :
  sorted_on "dateCreated" Descending l -> descending_by_dateCreated l.
Proof.
  induction 1 as [|d t Ht IH Hd]; constructor; [exact IH|].
  eapply Forall_impl; [|exact Hd]. intros x Hx. now apply Z.leb_le.
Qed.

Lemma filter_FAll (ds : list Friendship.t) : filter (matches FAll) ds = ds.
Proof. now apply filter_keeps_all. Qed.

(** C3: [findAll] returns all the stored records, in an order that is
    sorted descending on the path [dateFriendshiped].  That path is not the
    attribute [dateCreated] that [addOne] writes and no stored record has
    it, so every order satisfies the sort and the records come back in
    natural order; there is a store, built by two [addOne] calls, where
    that is not descending creation order.  With the sort key corrected to
    [dateCreated] the result is all the records in descending creation
    order, for every store. *)
Theorem findAll_sort_key_mismatch :
  (forall w, exists l,
      FriendshipCollection.findAll w = (Ok l, w)
      /\ Permutation l (friendships w)
      /\ sorted_on "dateFriendshiped" Descending l
      /\ l = friendships w)
  /\ "dateFriendshiped" <> "dateCreated"
  /\ (forall d : Friendship.t,
        get "dateFriendshiped" d = None
        /\ get "dateCreated" d = Some (VDate (Friendship.dateCreated d)))
  /\ (forall l, sorted_on "dateFriendshiped" Descending l)
  /\ (exists w l,
        (FriendshipCollection.addOne 100%N 200%N ;;
         elapse 5000%Z ;;
         FriendshipCollection.addOne 300%N 100%N ;;
         FriendshipCollection.findAll) Scenario.empty = (Ok l, w)
        /\ ~ descending_by_dateCreated l)
  /\ (forall w, exists l,
        findAll_by_dateCreated w = (Ok l, w)
        /\ Permutation l (friendships w)
        /\ descending_by_dateCreated l).
Proof.
  split; [|split; [|split; [|split; [|split]]]].
  - intros w. exists (friendships w).
    assert (E : FriendshipCollection.findAll w = (Ok (friendships w), w)).
    { unfold FriendshipCollection.findAll, FriendshipModel.exec. cbn.
      rewrite filter_FAll, sort_by_vacuous; [reflexivity|].
      intros x y. apply (before_dateFriendshiped Descending). }
    repeat split; trivial. apply sorted_on_dateFriendshiped.
  - discriminate.
  - intros d. split; reflexivity.
  - apply sorted_on_dateFriendshiped.
  - eexists. eexists. split; [vm_compute; reflexivity|].
    intros H. inversion H as [|d t _ Hd]; subst.
    inversion Hd as [|x s Hx _]; subst. cbn in Hx. lia.
  - intros w. eexists. split; [reflexivity|]. cbn. rewrite filter_FAll. split.
    + apply sort_by_perm.
    + apply sorted_on_dateCreated.
      apply (sort_by_sorted _ (before_total "dateCreated" Descending)
                              (before_trans "dateCreated" Descending)).
Qed.


(** ** The scenario of the spec, run *)

(** Create friendship(A, B); [findAllFriendshipsOfUser "alice"] returns one
    record, containing Bob; [deleteAllFriendshipOfUser "alice"] removes it;
    [findAllFriendshipsOfUser "bob"] then returns nothing. *)
Example scenario_alice_bob :
  fst ((FriendshipCollection.addOne 100%N 200%N ;;
        before_delete <- FriendshipCollection.findAllFriendshipsOfUser "alice" ;;
        FriendshipCollection.deleteAllFriendshipOfUser "alice" ;;
        after_delete <- FriendshipCollection.findAllFriendshipsOfUser "bob" ;;
        ret (before_delete, after_delete)) Scenario.empty)
  = Ok ([Friendship.mk 0%N 100%N 200%N 1000%Z], []).
Proof. vm_compute. reflexivity. Qed.

(** A username that no user has makes the per-user operations fail, and the
    store is left as it was. *)
Example unknown_username :
  FriendshipCollection.findAllFriendshipsOfUser "dave" Scenario.two_friendships
  = (Throw NotFound, Scenario.two_friendships)
  /\ FriendshipCollection.deleteAllFriendshipOfUser "dave" Scenario.two_friendships
     = (Throw NotFound, Scenario.two_friendships).
Proof. split; reflexivity. Qed.


(** * Further properties of the module *)

(** ** What the lookups and deletes do to the store *)

Lemma findOneByUsername_cases (w : World) (username : string) :
  (exists user, UserCollection.findOneByUsername username w = (Ok user, w))
  \/ UserCollection.findOneByUsername username w = (Throw NotFound, w).
Proof.
  unfold UserCollection.findOneByUsername.
  destruct (List.find _ (users w)) as [u|]; [left; now exists u | now right].
Qed.

Lemma deleteOne_run (w : World) (id : ObjectId) :
  exists w',
    FriendshipCollection.deleteOne id w = (Ok true, w')
    /\ friendships w'
       = filter (fun d => negb (N.eqb (Friendship._id d) id)) (friendships w)
    /\ users w' = users w
    /\ clock w' = clock w
    /\ nextId w' = nextId w.
Proof.
  eexists. split; [reflexivity|]. cbn [friendships users clock nextId].
  repeat split. apply remove_first_by_id, world_NoDup_ids.
Qed.

Lemma find_absent_id (i : ObjectId) (ds : list Friendship.t) :
  has_id i ds = false ->
  List.find (matches (FEq "_id" (VObjectId i))) ds = None.
Proof.
  unfold has_id. induction ds as [|d t IH]; cbn [existsb List.find]; [reflexivity|].
  rewrite matches_id. destruct (N.eqb (Friendship._id d) i); [discriminate|].
  exact IH.
Qed.

Lemma filter_absent_id (i : ObjectId) (ds : list Friendship.t) :
  has_id i ds = false ->
  filter (fun d => negb (N.eqb (Friendship._id d) i)) ds = ds.
Proof.
  intros H. apply filter_keeps_all. intros d Hd.
  apply negb_true_iff, N.eqb_neq. intros E.
  apply has_id_false in H. apply H. apply in_map_iff. now exists d.
Qed.

Lemma length_without_id (i : ObjectId) (ds : list Friendship.t) :
  has_id i ds = true ->
  NoDup (map Friendship._id ds) ->
  List.length ds
  = S (List.length (filter (fun d => negb (N.eqb (Friendship._id d) i)) ds)).
Proof.
  induction ds as [|d t IH]; cbn [has_id existsb map filter List.length];
    [discriminate|].
  intros H ND. apply NoDup_cons_iff in ND. destruct ND as [Hd ND].
  destruct (N.eqb_spec (Friendship._id d) i) as [E|E]; cbn [negb List.length].
  - rewrite filter_absent_id; [reflexivity|].
    apply has_id_false. now rewrite <- E.
  - f_equal. apply IH; [exact H | exact ND].
Qed.

(** X1: the three read operations never change the store, for any argument:
    not [findOne], not [findAll], and not [findAllFriendshipsOfUser], whether
    its username resolves or not. *)
Theorem reads_leave_the_store (w : World) :
  (forall friendshipId, snd (FriendshipCollection.findOne friendshipId w) = w)
  /\ snd (FriendshipCollection.findAll w) = w
  /\ (forall username,
        snd (FriendshipCollection.findAllFriendshipsOfUser username w) = w).
Proof.
  split; [reflexivity|]. split; [reflexivity|]. intros username.
  unfold FriendshipCollection.findAllFriendshipsOfUser, bind.
  destruct (findOneByUsername_cases w username) as [[user E]|E]; now rewrite E.
Qed.

(** X2: when the user lookup fails, [findAllFriendshipsOfUser] and
    [deleteAllFriendshipOfUser] fail with the lookup's error; the lookup
    comes first, so no query is run and nothing is deleted. *)
Theorem failed_lookup_propagates (w : World) (username : string) (e : Error) :
  UserCollection.findOneByUsername username w = (Throw e, w) ->
  FriendshipCollection.findAllFriendshipsOfUser username w = (Throw e, w)
  /\ FriendshipCollection.deleteAllFriendshipOfUser username w = (Throw e, w).
Proof.
  intros H.
  unfold FriendshipCollection.findAllFriendshipsOfUser,
    FriendshipCollection.deleteAllFriendshipOfUser, bind.
  now rewrite H.
Qed.

Lemma failed_lookup_propagates_witness :
  FriendshipCollection.findAllFriendshipsOfUser "dave" Scenario.two_friendships
  = (Throw NotFound, Scenario.two_friendships)
  /\ FriendshipCollection.deleteAllFriendshipOfUser "dave" Scenario.two_friendships
     = (Throw NotFound, Scenario.two_friendships).
Proof.
  exact (failed_lookup_propagates Scenario.two_friendships "dave" NotFound eq_refl).
Defined.

(** X3: [deleteOne] removes at most one record.  On an identifier that no
    stored record has it leaves the store exactly as it was (and still
    returns [true]); on an identifier that is stored, the collection shrinks
    by one record. *)
Theorem deleteOne_removes_at_most_one (w : World) (friendshipId : ObjectId) :
  (has_id friendshipId (friendships w) = false ->
     FriendshipCollection.deleteOne friendshipId w = (Ok true, w))
  /\ (has_id friendshipId (friendships w) = true ->
     List.length (friendships w)
     = S (List.length (friendships (snd (FriendshipCollection.deleteOne friendshipId w))))).
Proof.
  destruct (deleteOne_run w friendshipId) as (w' & Hrun & Hf & Hu & Hc & Hn).
  rewrite Hrun. cbn [snd]. split; intros H.
  - f_equal. apply World_eq; trivial. rewrite Hf. now apply filter_absent_id.
  - rewrite Hf. now apply length_without_id, world_NoDup_ids.
Qed.

(** X4: [deleteOne] is idempotent: deleting the same identifier a second
    time returns [true] again and leaves the store as the first delete left
    it. *)
Theorem deleteOne_twice (w : World) (friendshipId : ObjectId) :
  (FriendshipCollection.deleteOne friendshipId ;;
   FriendshipCollection.deleteOne friendshipId) w
  = FriendshipCollection.deleteOne friendshipId w.
Proof.
  destruct (deleteOne_run w friendshipId) as (w1 & Hrun1 & Hf1 & Hu1 & Hc1 & Hn1).
  destruct (deleteOne_run w1 friendshipId) as (w2 & Hrun2 & Hf2 & Hu2 & Hc2 & Hn2).
  unfold bind. rewrite Hrun1, Hrun2. f_equal.
  apply World_eq; try congruence.
  rewrite Hf2. apply filter_keeps_all. intros d Hd.
  rewrite Hf1 in Hd. now apply filter_In in Hd.
Qed.

(** X5: [deleteOne] touches no other record: for every identifier other than
    the deleted one, [findOne] answers after the delete what it answered
    before. *)
Theorem deleteOne_keeps_other_lookups (w : World) (deleted other : ObjectId) :
  other <> deleted ->
  fst ((FriendshipCollection.deleteOne deleted ;;
        FriendshipCollection.findOne other) w)
  = fst (FriendshipCollection.findOne other w).
Proof.
  intros Hne.
  destruct (deleteOne_run w deleted) as (w' & Hrun & Hf & _).
  unfold bind. rewrite Hrun.
  unfold FriendshipCollection.findOne, FriendshipModel.findOne. cbn [fst].
  f_equal. rewrite Hf. clear -Hne.
  induction (friendships w) as [|d t IH]; cbn [filter List.find]; [reflexivity|].
  destruct (N.eqb_spec (Friendship._id d) deleted) as [E|E]; cbn [negb List.find].
  - rewrite matches_id.
    destruct (N.eqb_spec (Friendship._id d) other) as [K|K]; [congruence | exact IH].
  - rewrite matches_id. destruct (N.eqb (Friendship._id d) other); [reflexivity | exact IH].
Qed.

Lemma deleteOne_keeps_other_lookups_witness :
  fst ((FriendshipCollection.deleteOne 0%N ;;
        FriendshipCollection.findOne 1%N) Scenario.two_friendships)
  = fst (FriendshipCollection.findOne 1%N Scenario.two_friendships).
Proof.
  apply (deleteOne_keeps_other_lookups Scenario.two_friendships 0%N 1%N). discriminate.
Defined.

(** ** What an insert does to later reads *)

Lemma find_snoc_other (q : Filter) (ds : list Friendship.t) (d : Friendship.t) :
  matches q d = false ->
  List.find (matches q) (ds ++ [d]) = List.find (matches q) ds.
Proof.
  intros H. induction ds as [|x t IH]; cbn [app List.find].
  - now rewrite H.
  - destruct (matches q x); [reflexivity | exact IH].
Qed.

(** X6: [addOne] never overwrites: the identifier of the record it returns
    was not in use before the call, and for every other identifier [findOne]
    answers after the call what it answered before. *)
Theorem addOne_keeps_lookups (w : World) (u1 u2 : ObjectId) :
  exists p w',
    FriendshipCollection.addOne u1 u2 w = (Ok p, w')
    /\ FriendshipCollection.findOne (Friendship._id p) w = (Ok None, w)
    /\ (forall friendshipId,
          friendshipId <> Friendship._id p ->
          fst (FriendshipCollection.findOne friendshipId w')
          = fst (FriendshipCollection.findOne friendshipId w)).
Proof.
  destruct (addOne_run w u1 u2) as (w' & Hrun & Hf & _).
  eexists. exists w'. split; [exact Hrun|]. cbn [Friendship._id].
  unfold FriendshipCollection.findOne, FriendshipModel.findOne. split.
  - now rewrite (find_absent_id _ _ (nextId_fresh w)).
  - intros friendshipId Hne. cbn [fst]. f_equal. rewrite Hf.
    apply find_snoc_other. rewrite matches_id. cbn [Friendship._id].
    apply N.eqb_neq. congruence.
Qed.

(** X7: [addOne] followed by [deleteOne] on the identifier of the returned
    record gives back the collection as it was before the two calls; the
    users and the clock are untouched. *)
Theorem addOne_then_deleteOne (w : World) (u1 u2 : ObjectId) :
  exists w',
    (p <- FriendshipCollection.addOne u1 u2 ;;
     FriendshipCollection.deleteOne (Friendship._id p)) w
    = (Ok true, w')
    /\ friendships w' = friendships w
    /\ users w' = users w
    /\ clock w' = clock w.
Proof.
  destruct (addOne_run w u1 u2) as (w1 & Hrun1 & Hf1 & Hu1 & Hc1 & _).
  destruct (deleteOne_run w1 (nextId w)) as (w2 & Hrun2 & Hf2 & Hu2 & Hc2 & _).
  exists w2. unfold bind. rewrite Hrun1. cbn [Friendship._id]. rewrite Hrun2.
  split; [reflexivity|]. split; [|split; congruence].
  rewrite Hf2, Hf1, filter_app. cbn [filter Friendship._id].
  rewrite N.eqb_refl. cbn [negb]. rewrite app_nil_r.
  apply filter_absent_id, nextId_fresh.
Qed.

(** X8: a friendship is listed for both of its parties: when two usernames
    resolve to users, after [addOne] on their ids the new record is in the
    result of [findAllFriendshipsOfUser] for the first username and for the
    second. *)
Theorem addOne_listed_for_both
    (w : World) (nameOne nameTwo : string) (userOne userTwo : User.t) :
  UserCollection.findOneByUsername nameOne w = (Ok userOne, w) ->
  UserCollection.findOneByUsername nameTwo w = (Ok userTwo, w) ->
  exists p w' listOne listTwo,
    FriendshipCollection.addOne (User._id userOne) (User._id userTwo) w = (Ok p, w')
    /\ FriendshipCollection.findAllFriendshipsOfUser nameOne w' = (Ok listOne, w')
    /\ FriendshipCollection.findAllFriendshipsOfUser nameTwo w' = (Ok listTwo, w')
    /\ In (Friendship.mk (Friendship._id p) (User._id userOne) (User._id userTwo) (clock w))
          listOne
    /\ In (Friendship.mk (Friendship._id p) (User._id userOne) (User._id userTwo) (clock w))
          listTwo.
Proof.
  intros H1 H2.
  destruct (addOne_run w (User._id userOne) (User._id userTwo))
    as (w' & Hrun & Hf & Hu & _).
  assert (Hin : In (Friendship.mk (nextId w) (User._id userOne) (User._id userTwo) (clock w))
                   (friendships w')).
  { rewrite Hf. apply in_or_app. right. now left. }
  eexists. exists w'. eexists. eexists. split; [exact Hrun|].
  unfold FriendshipCollection.findAllFriendshipsOfUser, bind.
  rewrite (findOneByUsername_users w w' nameOne userOne Hu H1).
  rewrite (findOneByUsername_users w w' nameTwo userTwo Hu H2).
  split; [reflexivity|]. split; [reflexivity|].
  cbn [Friendship._id FriendshipModel.find FriendshipModel.q_filter FriendshipModel.q_sort].
  split; apply filter_In; (split; [exact Hin|]); apply matches_either_iff;
    cbn [Friendship.userOneId Friendship.userTwoId]; auto.
Qed.

Lemma addOne_listed_for_both_witness :
  exists p w' listOne listTwo,
    FriendshipCollection.addOne 200%N 300%N Scenario.two_friendships = (Ok p, w')
    /\ FriendshipCollection.findAllFriendshipsOfUser "bob" w' = (Ok listOne, w')
    /\ FriendshipCollection.findAllFriendshipsOfUser "carol" w' = (Ok listTwo, w')
    /\ In (Friendship.mk (Friendship._id p) 200%N 300%N 3000%Z) listOne
    /\ In (Friendship.mk (Friendship._id p) 200%N 300%N 3000%Z) listTwo.
Proof.
  exact (addOne_listed_for_both Scenario.two_friendships "bob" "carol"
           Scenario.bob Scenario.carol eq_refl eq_refl).
Defined.

Lemma deref_dangling (w : World) (i : ObjectId) :
  (forall u, In u (users w) -> User._id u <> i) ->
  FriendshipModel.deref i w = None.
Proof.
  intros H. unfold FriendshipModel.deref.
  destruct (List.find _ (users w)) as [p|] eqn:E; [|reflexivity].
  apply find_some in E. destruct E as [Hp Hid]. apply N.eqb_eq in Hid.
  now destruct (H p Hp).
Qed.

(** X9: [addOne] does not check that its arguments are ids of users.  For
    an id that no user has, in either position, the call still succeeds and
    the record is still stored with that id; the returned record holds null
    in place of the missing user. *)
Theorem addOne_dangling_reference (w : World) (dangling other : ObjectId) :
  (forall u, In u (users w) -> User._id u <> dangling) ->
  exists w1 w2 r1 r2,
    FriendshipCollection.addOne dangling other w
    = (Ok (Friendship.mk (nextId w) None r1 (clock w)), w1)
    /\ In (Friendship.mk (nextId w) dangling other (clock w)) (friendships w1)
    /\ FriendshipCollection.addOne other dangling w
       = (Ok (Friendship.mk (nextId w) r2 None (clock w)), w2)
    /\ In (Friendship.mk (nextId w) other dangling (clock w)) (friendships w2).
Proof.
  intros H. pose proof (deref_dangling w dangling H) as D.
  destruct (addOne_run w dangling other) as (w1 & Hrun1 & Hf1 & _).
  destruct (addOne_run w other dangling) as (w2 & Hrun2 & Hf2 & _).
  rewrite D in Hrun1, Hrun2.
  exists w1, w2. eexists. eexists.
  split; [exact Hrun1|]. split; [rewrite Hf1; apply in_or_app; right; now left|].
  split; [exact Hrun2|]. rewrite Hf2. apply in_or_app. right. now left.
Qed.

Lemma addOne_dangling_reference_witness :
  exists w1 w2 r1 r2,
    FriendshipCollection.addOne 999%N 100%N Scenario.two_friendships
    = (Ok (Friendship.mk 2%N None r1 3000%Z), w1)
    /\ In (Friendship.mk 2%N 999%N 100%N 3000%Z) (friendships w1)
    /\ FriendshipCollection.addOne 100%N 999%N Scenario.two_friendships
       = (Ok (Friendship.mk 2%N r2 None 3000%Z), w2)
    /\ In (Friendship.mk 2%N 100%N 999%N 3000%Z) (friendships w2).
Proof.
  apply (addOne_dangling_reference Scenario.two_friendships 999%N 100%N).
  simpl. intros u [<-|[<-|[<-|[]]]]; discriminate.
Defined.


(** ** How the cascade delete composes *)

Lemma filter_comm {A : Type} (p q : A -> bool) (l : list A) :
  filter p (filter q l) = filter q (filter p l).
Proof.
  induction l as [|x t IH]; [reflexivity|]. cbn [filter].
  destruct (p x) eqn:P, (q x) eqn:Q; cbn [filter]; rewrite ?P, ?Q, IH; reflexivity.
Qed.

(** X11: [deleteAllFriendshipOfUser] is idempotent: run twice in a row for
    the same username it returns what one run returns and leaves the store
    as one run leaves it (and fails as one run fails when the username does
    not resolve). *)
Theorem deleteAll_twice (w : World) (username : string) :
  (FriendshipCollection.deleteAllFriendshipOfUser username ;;
   FriendshipCollection.deleteAllFriendshipOfUser username) w
  = FriendshipCollection.deleteAllFriendshipOfUser username w.
Proof.
  destruct (findOneByUsername_cases w username) as [[user E]|E].
  - destruct (deleteAllFriendshipOfUser_run w username user E)
      as (w1 & Hrun1 & Hf1 & Hu1 & Hc1 & Hn1).
    pose proof (findOneByUsername_users w w1 username user Hu1 E) as E1.
    destruct (deleteAllFriendshipOfUser_run w1 username user E1)
      as (w2 & Hrun2 & Hf2 & Hu2 & Hc2 & Hn2).
    unfold bind. rewrite Hrun1, Hrun2. f_equal.
    apply World_eq; try congruence.
    rewrite Hf2. rewrite filter_twice_either in Hf1 |- *.
    apply filter_keeps_all. intros d Hd.
    rewrite Hf1 in Hd. now apply filter_In in Hd.
  - unfold bind.
    assert (K : FriendshipCollection.deleteAllFriendshipOfUser username w
                = (Throw NotFound, w)).
    { unfold FriendshipCollection.deleteAllFriendshipOfUser, bind. now rewrite E. }
    now rewrite K.
Qed.

(** X12: the cascades of two users commute: when both usernames resolve,
    deleting all friendships of the first and then of the second leaves the
    same store as doing it in the other order. *)
Theorem deleteAll_commute
    (w : World) (nameA nameB : string) (userA userB : User.t) :
  UserCollection.findOneByUsername nameA w = (Ok userA, w) ->
  UserCollection.findOneByUsername nameB w = (Ok userB, w) ->
  (FriendshipCollection.deleteAllFriendshipOfUser nameA ;;
   FriendshipCollection.deleteAllFriendshipOfUser nameB) w
  = (FriendshipCollection.deleteAllFriendshipOfUser nameB ;;
     FriendshipCollection.deleteAllFriendshipOfUser nameA) w.
Proof.
  intros HA HB.
  destruct (deleteAllFriendshipOfUser_run w nameA userA HA)
    as (wa & RunA & Fa & Ua & Ca & Na).
  destruct (deleteAllFriendshipOfUser_run w nameB userB HB)
    as (wb & RunB & Fb & Ub & Cb & Nb).
  destruct (deleteAllFriendshipOfUser_run wa nameB userB
              (findOneByUsername_users w wa nameB userB Ua HB))
    as (wab & RunAB & Fab & Uab & Cab & Nab).
  destruct (deleteAllFriendshipOfUser_run wb nameA userA
              (findOneByUsername_users w wb nameA userA Ub HA))
    as (wba & RunBA & Fba & Uba & Cba & Nba).
  unfold bind. rewrite RunA, RunB, RunAB, RunBA. f_equal.
  apply World_eq; try congruence.
  rewrite Fab, Fba, Fa, Fb. rewrite !filter_twice_either. apply filter_comm.
Qed.

Lemma deleteAll_commute_witness :
  (FriendshipCollection.deleteAllFriendshipOfUser "bob" ;;
   FriendshipCollection.deleteAllFriendshipOfUser "carol") Scenario.two_friendships
  = (FriendshipCollection.deleteAllFriendshipOfUser "carol" ;;
     FriendshipCollection.deleteAllFriendshipOfUser "bob") Scenario.two_friendships.
Proof.
  exact (deleteAll_commute Scenario.two_friendships "bob" "carol"
           Scenario.bob Scenario.carol eq_refl eq_refl).
Defined.

(** X13: the cascade of one user takes from another user's list exactly the
    friendships the two share: when both usernames resolve, after
    [deleteAllFriendshipOfUser] for the first, [findAllFriendshipsOfUser]
    for the second returns the records it returned before in which the
    first user is neither party. *)
Theorem deleteAll_then_findAll_of_other
    (w : World) (deleted other : string) (userD userO : User.t) :
  UserCollection.findOneByUsername deleted w = (Ok userD, w) ->
  UserCollection.findOneByUsername other w = (Ok userO, w) ->
  exists before after w',
    FriendshipCollection.findAllFriendshipsOfUser other w = (Ok before, w)
    /\ (FriendshipCollection.deleteAllFriendshipOfUser deleted ;;
        FriendshipCollection.findAllFriendshipsOfUser other) w
       = (Ok after, w')
    /\ (forall d, In d after <->
          In d before
          /\ Friendship.userOneId d <> User._id userD
          /\ Friendship.userTwoId d <> User._id userD).
Proof.
  intros HD HO.
  destruct (deleteAllFriendshipOfUser_run w deleted userD HD)
    as (w' & Hrun & Hf & Hu & _).
  eexists. eexists. exists w'.
  unfold FriendshipCollection.findAllFriendshipsOfUser, bind.
  rewrite HO, Hrun, (findOneByUsername_users w w' other userO Hu HO).
  split; [reflexivity|]. split; [reflexivity|].
  cbn [FriendshipModel.find FriendshipModel.q_filter FriendshipModel.q_sort].
  intros d. rewrite Hf, !filter_In, matches_userOneId, matches_userTwoId.
  rewrite !negb_true_iff, !N.eqb_neq. tauto.
Qed.

Lemma deleteAll_then_findAll_of_other_witness :
  exists before after w',
    FriendshipCollection.findAllFriendshipsOfUser "alice" Scenario.two_friendships
    = (Ok before, Scenario.two_friendships)
    /\ (FriendshipCollection.deleteAllFriendshipOfUser "bob" ;;
        FriendshipCollection.findAllFriendshipsOfUser "alice") Scenario.two_friendships
       = (Ok after, w')
    /\ (forall d, In d after <->
          In d before
          /\ Friendship.userOneId d <> 200%N
          /\ Friendship.userTwoId d <> 200%N).
Proof.
  exact (deleteAll_then_findAll_of_other Scenario.two_friendships "bob" "alice"
           Scenario.bob Scenario.alice eq_refl eq_refl).
Defined.

(** X14: deleting one friendship takes it off the list of every user and
    takes nothing else off: when the username resolves, after
    [deleteOne friendshipId] the result of [findAllFriendshipsOfUser] is
    what it was before, without the record of that identifier. *)
Theorem deleteOne_then_findAll_of_user
    (w : World) (friendshipId : ObjectId) (username : string) (user : User.t) :
  UserCollection.findOneByUsername username w = (Ok user, w) ->
  exists before after w',
    FriendshipCollection.findAllFriendshipsOfUser username w = (Ok before, w)
    /\ (FriendshipCollection.deleteOne friendshipId ;;
        FriendshipCollection.findAllFriendshipsOfUser username) w
       = (Ok after, w')
    /\ (forall d, In d after <-> In d before /\ Friendship._id d <> friendshipId).
Proof.
  intros H.
  destruct (deleteOne_run w friendshipId) as (w' & Hrun & Hf & Hu & _).
  eexists. eexists. exists w'.
  unfold FriendshipCollection.findAllFriendshipsOfUser.
  unfold bind at 1 2 3. rewrite H.
  unfold bind at 1. rewrite Hrun.
  unfold bind. rewrite (findOneByUsername_users w w' username user Hu H).
  split; [reflexivity|]. split; [reflexivity|].
  cbn [FriendshipModel.find FriendshipModel.q_filter FriendshipModel.q_sort].
  intros d. rewrite Hf, !filter_In, negb_true_iff, N.eqb_neq. tauto.
Qed.

Lemma deleteOne_then_findAll_of_user_witness :
  exists before after w',
    FriendshipCollection.findAllFriendshipsOfUser "alice" Scenario.two_friendships
    = (Ok before, Scenario.two_friendships)
    /\ (FriendshipCollection.deleteOne 1%N ;;
        FriendshipCollection.findAllFriendshipsOfUser "alice") Scenario.two_friendships
       = (Ok after, w')
    /\ (forall d, In d after <-> In d before /\ Friendship._id d <> 1%N).
Proof.
  exact (deleteOne_then_findAll_of_user Scenario.two_friendships 1%N "alice"
           Scenario.alice eq_refl).
Defined.

(** X15: for a user who is party to no stored friendship, the cascade is a
    no-op: [deleteAllFriendshipOfUser] returns normally and the store is
    exactly as it was. *)
Theorem deleteAll_without_friendships
    (w : World) (username : string) (user : User.t) :
  UserCollection.findOneByUsername username w = (Ok user, w) ->
  (forall d, In d (friendships w) ->
     Friendship.userOneId d <> User._id user
     /\ Friendship.userTwoId d <> User._id user) ->
  FriendshipCollection.deleteAllFriendshipOfUser username w = (Ok tt, w).
Proof.
  intros H Hnone.
  destruct (deleteAllFriendshipOfUser_run w username user H)
    as (w' & Hrun & Hf & Hu & Hc & Hn).
  rewrite Hrun. f_equal. apply World_eq; trivial.
  rewrite Hf, filter_twice_either. apply filter_keeps_all. intros d Hd.
  apply negb_true_iff, not_true_iff_false. intros K.
  apply matches_either_iff in K. destruct (Hnone d Hd). tauto.
Qed.

(** Alice and Bob are friends; Carol has no friendship. *)
Definition carol_alone : World :=
  mkWorld [Friendship.mk 0%N 100%N 200%N 1000%Z]
          [Scenario.alice; Scenario.bob; Scenario.carol] 2000%Z 1%N eq_refl.

Lemma deleteAll_without_friendships_witness :
  FriendshipCollection.deleteAllFriendshipOfUser "carol" carol_alone
  = (Ok tt, carol_alone).
Proof.
  apply (deleteAll_without_friendships carol_alone "carol" Scenario.carol eq_refl).
  simpl. intros d [<-|[]]. split; discriminate.
Defined.
